(** * A shallow embedding of [main.py]: the [/test] and [/quiz] endpoints.

    The program is a small FastAPI service.  Its request handlers are plain
    Python functions; the embedding keeps their control flow (truthiness
    tests, subscripting, slicing, [try]/[except]) and models what they read
    from the outside (the process environment, the upstream HTTP API, the
    optional [database] module) as an explicit world. *)

From Stdlib Require Import ZArith NArith List String Ascii Lia.
From Stdlib Require Import Floats.SpecFloat.
From stdpp Require Import base gmap strings list fin_maps pretty.

Local Open Scope Z_scope.
Local Set Warnings "-register-all,-clear-no-such-hyp".

(** ** Python strings

    A Python [str] is a sequence of Unicode code points; [len] and slicing
    count code points, so a string is a list of code points here. *)

Module PyStr.

Definition pychar := N.
Definition pystr := list pychar.

(** An ASCII character literal of the source. *)
Definition chr (a : ascii) : pychar := N_of_ascii a.
Arguments chr a%_char.

(** An ASCII literal of the source as a [pystr]. *)
Definition u (s : string) : pystr :=
  N_of_ascii <$> list_ascii_of_string s.

(** [str.isspace] on one character (CPython's whitespace table). *)
Definition isspace (c : pychar) : bool :=
  ((9 <=? c) && (c <=? 13) || (28 <=? c) && (c <=? 32)
   || (c =? 133) || (c =? 160) || (c =? 5760)
   || (8192 <=? c) && (c <=? 8202)
   || (c =? 8232) || (c =? 8233) || (c =? 8239) || (c =? 8287)
   || (c =? 12288))%N.

Fixpoint lstrip_by (f : pychar -> bool) (s : pystr) : pystr :=
  match s with
  | c :: s' => if f c then lstrip_by f s' else s
  | [] => []
  end.

Definition rstrip_by (f : pychar -> bool) (s : pystr) : pystr :=
  rev (lstrip_by f (rev s)).

Definition strip_by (f : pychar -> bool) (s : pystr) : pystr :=
  rstrip_by f (lstrip_by f s).

(** [s.strip()] *)
Definition strip (s : pystr) : pystr := strip_by isspace s.

(** [s.strip(chars)] *)
Definition strip_chars (chars : pystr) (s : pystr) : pystr :=
  strip_by (fun c => bool_decide (c ∈ chars)) s.

(** [s.find(c)] for a one-character needle: lowest index, or -1. *)
Fixpoint find_from (i : Z) (c : pychar) (s : pystr) : Z :=
  match s with
  | [] => -1
  | d :: s' => if (d =? c)%N then i else find_from (i + 1) c s'
  end.

Definition find (s : pystr) (c : pychar) : Z := find_from 0 c s.

(** [s.rfind(c)] for a one-character needle: highest index, or -1. *)
Fixpoint rfind_from (i : Z) (c : pychar) (s : pystr) : Z :=
  match s with
  | [] => -1
  | d :: s' =>
      let r := rfind_from (i + 1) c s' in
      if r =? -1 then (if (d =? c)%N then i else -1) else r
  end.

Definition rfind (s : pystr) (c : pychar) : Z := rfind_from 0 c s.

(** Python slicing [s[lo:hi]] with integer bounds (step 1): a negative
    bound counts from the end, and both are clamped to [0, len]. *)
Definition clamp_index (len i : Z) : Z :=
  if i <? 0 then Z.max (i + len) 0 else Z.min i len.

Definition slice {A} (s : list A) (lo hi : Z) : list A :=
  let len := Z.of_nat (length s) in
  let lo' := clamp_index len lo in
  let hi' := clamp_index len hi in
  take (Z.to_nat (hi' - lo')) (drop (Z.to_nat lo') s).

(** Code points of the non-ASCII characters of the source's literals. *)
Definition check_mark : pystr := [9989%N].            (* U+2705 *)
Definition cross_mark : pystr := [10060%N].           (* U+274C *)
Definition warning_sign : pystr := [9888%N; 65039%N]. (* U+26A0 U+FE0F *)
Definition degree_sign : pystr := [176%N].            (* U+00B0 *)

End PyStr.
Export PyStr.

(** ** Exceptions and the effect monad *)

Module Py.

(** The exception classes the program can meet; all derive from
    [Exception].  [ModuleNotFoundError] derives from [ImportError]. *)
Inductive exn_class :=
| ImportError | ModuleNotFoundError
| KeyError | IndexError | TypeError | AttributeError | ZeroDivisionError
| JSONDecodeError
| RequestsConnectionError | RequestsTimeout | HTTPError
| OtherException.

(** An exception instance: its class and [str(e)]. *)
Record exn := Exn { exn_cls : exn_class; exn_str : pystr }.

Definition isinstance_ImportError (e : exn) : bool :=
  match exn_cls e with
  | ImportError | ModuleNotFoundError => true
  | _ => false
  end.

Inductive outcome (A : Type) :=
| Ret (a : A)
| Raise (e : exn).
Arguments Ret {A} a.
Arguments Raise {A} e.

(** A computation over a mutable state [S] that returns or raises. *)
Definition M (S A : Type) : Type := S -> outcome A * S.

Definition ret {S A} (a : A) : M S A := fun s => (Ret a, s).

Definition raise {S A} (e : exn) : M S A := fun s => (Raise e, s).

Definition bind {S A B} (m : M S A) (k : A -> M S B) : M S B :=
  fun s =>
    match m s with
    | (Ret a, s') => k a s'
    | (Raise e, s') => (Raise e, s')
    end.

(** [try: m  except Exception as e: h e] -- the handler runs in the state
    the body left behind. *)
Definition try_except {S A} (m : M S A) (h : exn -> M S A) : M S A :=
  fun s =>
    match m s with
    | (Ret a, s') => (Ret a, s')
    | (Raise e, s') => h e s'
    end.

(** Lifting of a result computed outside the state. *)
Definition lift {S A} (o : outcome A) : M S A := fun s => (o, s).

(** An exception raised by the interpreter; the program never looks at
    the message of these. *)
Definition raise_cls {S A} (c : exn_class) : M S A := raise (Exn c []).

End Py.
Export Py.

Declare Scope py_scope.
Delimit Scope py_scope with py.
Notation "'let*' x ':=' c1 'in' c2" := (bind c1 (fun x => c2))
  (at level 10, x name, c1 at level 100, c2 at level 200) : py_scope.
Notation "c1 ;; c2" := (bind c1 (fun _ => c2))
  (at level 100, c2 at level 200, right associativity) : py_scope.
Local Open Scope py_scope.

(** ** Values decoded from JSON

    What [json.loads] and [Response.json] build: [None], [bool], [int],
    [float], [str], [list], and [dict] with string keys.  A [dict] is kept as
    an association list in insertion order; its keys are pairwise distinct,
    so the first match of a key is its only one. *)

Module Json.

Inductive json :=
| JNull
| JBool (b : bool)
| JInt (z : Z)
| JFloat (f : spec_float)
| JStr (s : pystr)
| JList (l : list json)
| JDict (d : list (pystr * json)).

Fixpoint assoc (k : pystr) (d : list (pystr * json)) : option json :=
  match d with
  | [] => None
  | (k', v) :: d' => if bool_decide (k = k') then Some v else assoc k d'
  end.

(** Truth value of an object, as tested by [if not x]. *)
Definition truthy (v : json) : bool :=
  match v with
  | JNull => false
  | JBool b => b
  | JInt z => negb (z =? 0)
  | JFloat (S754_zero _) => false
  | JFloat _ => true
  | JStr [] => false
  | JStr _ => true
  | JList [] => false
  | JList _ => true
  | JDict [] => false
  | JDict _ => true
  end.

(** [v[k]] for a string literal [k]. *)
Definition getitem_key {S} (v : json) (k : pystr) : M S json :=
  match v with
  | JDict d =>
      match assoc k d with
      | Some x => ret x
      | None => raise_cls KeyError
      end
  | _ => raise_cls TypeError
  end.

(** [v[i]] for a non-negative integer literal [i]. *)
Definition getitem_idx {S} (v : json) (i : nat) : M S json :=
  match v with
  | JDict _ => raise_cls KeyError
  | JList l =>
      match l !! i with
      | Some x => ret x
      | None => raise_cls IndexError
      end
  | JStr s =>
      match s !! i with
      | Some c => ret (JStr [c])
      | None => raise_cls IndexError
      end
  | _ => raise_cls TypeError
  end.

(** [v.get(k, dflt)]: only a [dict] has the method. *)
Definition method_get {S} (v : json) (k : pystr) (dflt : json) : M S json :=
  match v with
  | JDict d => ret (default dflt (assoc k d))
  | _ => raise_cls AttributeError
  end.

(** [v.strip()]: only a [str] has the method. *)
Definition method_strip {S} (v : json) : M S pystr :=
  match v with
  | JStr s => ret (strip s)
  | _ => raise_cls AttributeError
  end.

End Json.
Export Json.

(** ** The world a request handler runs in *)

(** A value stored in the status response: [None], a [str], or a list of
    names. *)
Inductive pyval :=
| VNone
| VStr (s : pystr)
| VList (l : list pystr).

(** The [db] object of the optional [database] module: its [name]
    attribute when it has one, and what [db.list_collection_names()]
    does. *)
Record db_handle := {
  db_name : option pyval;
  list_collection_names : outcome (list pystr)
}.

(** What the upstream answers to [requests.post]: the status code and what
    [resp.json()] does on the body. *)
Record response := {
  status_code : Z;
  json_body : outcome json
}.

Record World := {
  (** [os.environ] *)
  environ : gmap string pystr;
  (** the effect of [from database import db]: an exception, [None], or a
      handle *)
  database_module : outcome (option db_handle);
  (** the effect of the [n]-th outbound request, given the API key sent: an
      exception of [requests] (no connection, timeout) or a response *)
  upstream : nat -> pystr -> outcome response;
  (** number of outbound requests made so far *)
  requests_sent : nat
}.

(** [os.getenv(k)] *)
Definition os_getenv (k : string) : M World (option pystr) :=
  fun w => (Ret (environ w !! k), w).

(** [os.getenv(k, dflt)] *)
Definition os_getenv_default (k : string) (dflt : pystr) : M World pystr :=
  fun w => (Ret (default dflt (environ w !! k)), w).

(** [a % b] on non-negative integers. *)
Definition py_mod {S} (a b : nat) : M S nat :=
  match b with
  | O => raise_cls ZeroDivisionError
  | _ => ret (a mod b)%nat
  end.

(** [l[i]] on a list, for a non-negative [i]. *)
Definition list_getitem {S A} (l : list A) (i : nat) : M S A :=
  match l !! i with
  | Some x => ret x
  | None => raise_cls IndexError
  end.

(** ** The fallback selector *)

Definition quiz_item (p s : pystr) : gmap string pystr :=
  {[ "prompt" := p; "solution" := s ]}.

Definition pool : list (gmap string pystr) :=
  [ quiz_item (u "If f(x) = 2x^2 - 3x + 1, what is f(3)?") (u "10");
    quiz_item
      (u "Which planet has the strongest surface gravity among Earth, Mars, and Jupiter?")
      (u "Jupiter");
    quiz_item (u "Who wrote the play 'Hamlet'?") (u "William Shakespeare");
    quiz_item
      (u "In chemistry, what is the pH of a neutral solution at 25"
         ++ degree_sign ++ u "C?")
      (u "7");
    quiz_item
      (u "What is the Big-O time complexity of binary search on a sorted array?")
      (u "O(log n)") ].

(** The index expression of [_fallback_question]. *)
Definition fallback_idx : M World nat :=
  let* h := os_getenv_default "HOSTNAME" (u "x") in
  let* p := os_getenv_default "PORT" (u "0") in
  py_mod (length h + length p) (length pool).

Definition _fallback_question : M World (gmap string pystr) :=
  let* idx := fallback_idx in
  list_getitem pool idx.

(** ** The [/quiz] endpoint *)

(** Truth value of what [os.getenv] returns: [None] and the empty string
    are false. *)
Definition truthy_env (o : option pystr) : bool :=
  match o with
  | Some (_ :: _) => true
  | _ => false
  end.

(** The world after one more outbound request. *)
Definition count_request (w : World) : World :=
  {| environ := environ w;
     database_module := database_module w;
     upstream := upstream w;
     requests_sent := S (requests_sent w) |}.

(** [requests.post(url, ..., params={"key": api_key}, ..., timeout=10)]:
    the URL, headers, body and timeout are constants of the program, so the
    upstream's answer is a function of the request number and the key. *)
Definition requests_post (api_key : pystr) : M World response :=
  fun w => (upstream w (requests_sent w) api_key, count_request w).

(** [resp.raise_for_status()]: [HTTPError] on a 4xx or 5xx status. *)
Definition raise_for_status (resp : response) : M World unit :=
  if (400 <=? status_code resp) && (status_code resp <? 600)
  then raise_cls HTTPError
  else ret tt.

(** [data["candidates"][0]["content"]["parts"][0]["text"]] *)
Definition candidate_text {S} (data : json) : M S json :=
  let* cands := getitem_key data (u "candidates") in
  let* cand := getitem_idx cands 0 in
  let* content := getitem_key cand (u "content") in
  let* parts := getitem_key content (u "parts") in
  let* part := getitem_idx parts 0 in
  getitem_key part (u "text").

Section Quiz.

(** [json.loads] of the standard library: the decoded value, or the
    exception it raises. *)
Variable json_loads : pystr -> outcome json.

(** [str(v)] of a [float], a [list] or a [dict], as the interpreter
    prints them. *)
Variable py_repr : json -> pystr.

(** [str(v)] *)
Definition py_str (v : json) : pystr :=
  match v with
  | JStr s => s
  | JNull => u "None"
  | JBool true => u "True"
  | JBool false => u "False"
  | JInt z => u (pretty z)
  | _ => py_repr v
  end.

Definition get_quiz : M World (gmap string pystr) :=
  let* api_key := os_getenv "GEMINI_API_KEY" in
  match api_key with
  | None | Some [] => _fallback_question
  | Some api_key =>
    try_except
      (let* resp := requests_post api_key in
       raise_for_status resp ;;
       let* data := lift (json_body resp) in
       let* text :=
         try_except (candidate_text data) (fun _ => ret JNull) in
       if negb (truthy text) then _fallback_question else
       let* text_ws := method_strip text in
       let text_stripped := strip_chars (u "`") text_ws in
       let start := find text_stripped (chr "{") in
       let end_ := rfind text_stripped (chr "}") in
       if (start =? -1) || (end_ =? -1) then _fallback_question else
       let json_str := slice text_stripped start (end_ + 1) in
       let* obj := lift (json_loads json_str) in
       let* prompt_v := method_get obj (u "prompt") (JStr []) in
       let prompt := strip (py_str prompt_v) in
       let* solution_v := method_get obj (u "solution") (JStr []) in
       let solution := strip (py_str solution_v) in
       match prompt, solution with
       | [], _ | _, [] => _fallback_question
       | _, _ =>
           let prompt := slice prompt 0 300 in
           let solution := slice solution 0 100 in
           ret (quiz_item prompt solution)
       end)
      (fun _ => _fallback_question)
  end.

(** *** A functional reading of the upstream path

    The names below restate, as pure functions of the upstream's answer,
    what the handler computes on the way to a successful return.  They
    are used to state how [get_quiz] behaves; the lemmas relating them to
    [get_quiz] are proved on [get_quiz] itself. *)

(** The value bound to [text] after the inner [try]. *)
Definition text_of (data : json) : json :=
  match fst (candidate_text data tt) with
  | Ret v => v
  | Raise _ => JNull
  end.

(** [text_stripped] *)
Definition clean (text : pystr) : pystr := strip_chars (u "`") (strip text).

(** [json_str], from the first opening brace to the last closing one. *)
Definition located (t : pystr) : pystr :=
  slice t (find t (chr "{")) (rfind t (chr "}") + 1).

(** [str(obj.get(k, "")).strip()] on a decoded object. *)
Definition field (d : list (pystr * json)) (k : pystr) : pystr :=
  strip (py_str (default (JStr []) (assoc k d))).

(** The trimmed prompt and solution an upstream answer yields, when it
    yields any. *)
Definition upstream_item (o : outcome response) : option (pystr * pystr) :=
  match o with
  | Raise _ => None
  | Ret resp =>
      if (400 <=? status_code resp) && (status_code resp <? 600) then None
      else
        match json_body resp with
        | Raise _ => None
        | Ret data =>
            match text_of data with
            | JStr text =>
                let t := clean text in
                if (find t (chr "{") =? -1) || (rfind t (chr "}") =? -1) then None
                else
                  match json_loads (located t) with
                  | Ret (JDict d) =>
                      match field d (u "prompt"), field d (u "solution") with
                      | [], _ | _, [] => None
                      | p, s => Some (p, s)
                      end
                  | _ => None
                  end
            | _ => None
            end
        end
  end.

(** The ways an upstream answer can fail to provide a question. *)
Inductive unusable : outcome response -> Prop :=
| transport_error e :
    unusable (Raise e)
| error_status resp :
    400 <= status_code resp < 600 ->
    unusable (Ret resp)
| body_not_json resp e :
    json_body resp = Raise e ->
    unusable (Ret resp)
| text_missing resp data e :
    json_body resp = Ret data ->
    fst (candidate_text data tt) = Raise e ->
    unusable (Ret resp)
| text_not_a_string resp data v :
    json_body resp = Ret data ->
    fst (candidate_text data tt) = Ret v ->
    (forall s, v <> JStr s) ->
    unusable (Ret resp)
| text_empty resp data :
    json_body resp = Ret data ->
    fst (candidate_text data tt) = Ret (JStr []) ->
    unusable (Ret resp)
| object_absent resp data text :
    json_body resp = Ret data ->
    fst (candidate_text data tt) = Ret (JStr text) ->
    find (clean text) (chr "{") = -1 \/ rfind (clean text) (chr "}") = -1 ->
    unusable (Ret resp)
| object_undecodable resp data text e :
    json_body resp = Ret data ->
    fst (candidate_text data tt) = Ret (JStr text) ->
    json_loads (located (clean text)) = Raise e ->
    unusable (Ret resp)
| object_not_a_dict resp data text v :
    json_body resp = Ret data ->
    fst (candidate_text data tt) = Ret (JStr text) ->
    json_loads (located (clean text)) = Ret v ->
    (forall d, v <> JDict d) ->
    unusable (Ret resp)
| field_empty resp data text d :
    json_body resp = Ret data ->
    fst (candidate_text data tt) = Ret (JStr text) ->
    json_loads (located (clean text)) = Ret (JDict d) ->
    field d (u "prompt") = [] \/ field d (u "solution") = [] ->
    unusable (Ret resp).

End Quiz.

(** ** The [/test] endpoint

    The handler builds one [dict] and updates it in place; the [dict] is the
    state of the computation, so an update made before an exception is
    still there in the handler. *)

Definition setitem (k : string) (v : pyval) : M (gmap string pyval) unit :=
  fun r => (Ret tt, <[k := v]> r).

Definition initial_response : gmap string pyval :=
  {[ "backend" := VStr (check_mark ++ u " Running");
     "database" := VStr (cross_mark ++ u " Not Available");
     "database_url" := VNone;
     "database_name" := VNone;
     "connection_status" := VStr (u "Not Connected");
     "collections" := VList [] ]}.

Definition test_database_body (w : World) : M (gmap string pyval) unit :=
  try_except
    (let* db := lift (database_module w) in
     match db with
     | Some db =>
         setitem "database" (VStr (check_mark ++ u " Available")) ;;
         setitem "database_url" (VStr (check_mark ++ u " Configured")) ;;
         setitem "database_name"
           (match db_name db with
            | Some n => n
            | None => VStr (check_mark ++ u " Connected")
            end) ;;
         setitem "connection_status" (VStr (u "Connected")) ;;
         try_except
           (let* collections := lift (list_collection_names db) in
            setitem "collections" (VList (slice collections 0 10)) ;;
            setitem "database" (VStr (check_mark ++ u " Connected & Working")))
           (fun e =>
              setitem "database"
                (VStr (warning_sign ++ u "  Connected but Error: "
                         ++ slice (exn_str e) 0 50)))
     | None =>
         setitem "database"
           (VStr (warning_sign ++ u "  Available but not initialized"))
     end)
    (fun e =>
       if isinstance_ImportError e
       then setitem "database"
              (VStr (cross_mark
                       ++ u " Database module not found (run enable-database first)"))
       else setitem "database"
              (VStr (cross_mark ++ u " Error: " ++ slice (exn_str e) 0 50))) ;;
  setitem "database_url"
    (VStr (if truthy_env (environ w !! "DATABASE_URL")
           then check_mark ++ u " Set" else cross_mark ++ u " Not Set")) ;;
  setitem "database_name"
    (VStr (if truthy_env (environ w !! "DATABASE_NAME")
           then check_mark ++ u " Set" else cross_mark ++ u " Not Set")).

Definition test_database : M World (gmap string pyval) :=
  fun w =>
    match test_database_body w initial_response with
    | (Ret _, r) => (Ret r, w)
    | (Raise e, _) => (Raise e, w)
    end.

(** ** Concrete inputs used in the examples *)

Module Demo.

Definition quote : pystr := [34%N].
Definition newline : pystr := [10%N].

Definition env_abc_8000 : gmap string pystr :=
  {[ "HOSTNAME" := u "abc"; "PORT" := u "8000" ]}.

(** A world without database module whose upstream always times out. *)
Definition offline (env : gmap string pystr) : World :=
  {| environ := env;
     database_module := Raise (Exn ModuleNotFoundError (u "No module named 'database'"));
     upstream := fun _ _ => Raise (Exn RequestsTimeout (u "timed out"));
     requests_sent := 0 |}.

(** The JSON text of one question. *)
Definition object_text : pystr :=
  u "{" ++ quote ++ u "prompt" ++ quote ++ u ": " ++ quote
    ++ u " What is the capital of France? " ++ quote ++ u ", "
    ++ quote ++ u "solution" ++ quote ++ u ": " ++ quote ++ u "Paris"
    ++ quote ++ u "}".

(** A decoder that knows this one text. *)
Definition json_loads (s : pystr) : outcome json :=
  if bool_decide (s = object_text)
  then Ret (JDict [ (u "prompt", JStr (u " What is the capital of France? "));
                    (u "solution", JStr (u "Paris")) ])
  else Raise (Exn JSONDecodeError (u "Expecting value")).

Definition py_repr (v : json) : pystr := u "...".

(** The generated text: the object inside a fenced block. *)
Definition model_text : pystr :=
  u "```json" ++ newline ++ object_text ++ newline ++ u "```" ++ newline.

Definition answer : json :=
  JDict [ (u "candidates",
           JList [ JDict [ (u "content",
             JDict [ (u "parts",
               JList [ JDict [ (u "text", JStr model_text) ] ]) ]) ] ]) ].

Definition online (env : gmap string pystr) : World :=
  {| environ := env;
     database_module := Ret None;
     upstream := fun _ _ => Ret {| status_code := 200; json_body := Ret answer |};
     requests_sent := 0 |}.

Definition env_with_key : gmap string pystr :=
  {[ "GEMINI_API_KEY" := u "secret"; "HOSTNAME" := u "abc"; "PORT" := u "8000" ]}.

(** Two environments that both set [DATABASE_URL]: one to the empty
    string, one to an address. *)
Definition env_url_empty : gmap string pystr :=
  {[ "DATABASE_URL" := [] ]}.

Definition env_url_address : gmap string pystr :=
  {[ "DATABASE_URL" := u "mongodb://localhost:27017" ]}.

Definition twelve_names : list pystr :=
  [ u "c01"; u "c02"; u "c03"; u "c04"; u "c05"; u "c06";
    u "c07"; u "c08"; u "c09"; u "c10"; u "c11"; u "c12" ].

Definition with_database (env : gmap string pystr) : World :=
  {| environ := env;
     database_module :=
       Ret (Some {| db_name := Some (VStr (u "trivia"));
                    list_collection_names := Ret twelve_names |});
     upstream := fun _ _ => Raise (Exn RequestsTimeout (u "timed out"));
     requests_sent := 0 |}.

End Demo.

(** ** The greeting endpoints *)

(** [read_root], the handler of [/]. *)
Definition read_root : M World (gmap string pystr) :=
  ret {[ "message" := u "Hello from FastAPI Backend!" ]}.

(** [hello], the handler of [/api/hello]. *)
Definition hello : M World (gmap string pystr) :=
  ret {[ "message" := u "Hello from the backend API!" ]}.

(** ** Further concrete inputs *)

Module DemoMore.

(** A decoder for [Demo.object_text] whose object has a [null] prompt. *)
Definition json_loads_null (s : pystr) : outcome json :=
  if bool_decide (s = Demo.object_text)
  then Ret (JDict [ (u "prompt", JNull); (u "solution", JStr (u "Paris")) ])
  else Raise (Exn JSONDecodeError (u "Expecting value")).

(** A database handle whose enumeration raises an [ImportError]. *)
Definition broken_handle : db_handle :=
  {| db_name := Some VNone;
     list_collection_names :=
       Raise (Exn ImportError (u "cannot import name 'SON' from 'bson'")) |}.

Definition broken_database (env : gmap string pystr) : World :=
  {| environ := env;
     database_module := Ret (Some broken_handle);
     upstream := fun _ _ => Raise (Exn RequestsTimeout (u "timed out"));
     requests_sent := 0 |}.

(** An environment that sets neither [HOSTNAME] nor [PORT]. *)
Definition env_bare : gmap string pystr := ∅.


End DemoMore.

(** * Evaluating the model on small inputs *)

Example strip_example : strip (u "  a b  ") = u "a b".
Proof. reflexivity. Qed.

Example strip_chars_example : strip_chars (u "`") (u "```json{}```") = u "json{}".
Proof. reflexivity. Qed.

Example find_example : find (u "ab{c{") (chr "{") = 2 /\ find (u "abc") (chr "{") = -1.
Proof. split; reflexivity. Qed.

Example rfind_example : rfind (u "a}b}c") (chr "}") = 3 /\ rfind (u "abc") (chr "}") = -1.
Proof. split; reflexivity. Qed.

Example slice_example :
  slice (u "abcdef") 2 4 = u "cd"
  /\ slice (u "abcdef") 4 2 = []
  /\ slice (u "abcdef") (-2) 100 = u "ef".
Proof. repeat split; reflexivity. Qed.

Example clean_example :
  located (clean Demo.model_text) = Demo.object_text.
Proof. vm_compute. reflexivity. Qed.

Example get_quiz_offline_example :
  get_quiz Demo.json_loads Demo.py_repr (Demo.offline Demo.env_with_key)
  = (Ret (quiz_item (u "Who wrote the play 'Hamlet'?") (u "William Shakespeare")),
     count_request (Demo.offline Demo.env_with_key)).
Proof. vm_compute. reflexivity. Qed.

(** * Slicing *)

Section SliceFacts.

(** A slice from the start is a prefix. *)
Lemma slice_prefix {A} (s : list A) (n : nat) :
  slice s 0 (Z.of_nat n) = take n s.
Proof.
  unfold slice, clamp_index.
  replace (0 <? 0) with false by reflexivity.
  destruct (Z.ltb_spec (Z.of_nat n) 0); [lia|].
  rewrite (Z.min_l 0) by lia. change (Z.to_nat 0) with 0%nat.
  rewrite drop_0, Z.sub_0_r.
  destruct (decide (n <= length s)%nat).
  - rewrite Z.min_l by lia. by rewrite Nat2Z.id.
  - rewrite Z.min_r by lia. rewrite Nat2Z.id.
    rewrite !take_ge by lia. reflexivity.
Qed.

Lemma prefix_bounded (s : pystr) (n : nat) :
  s <> [] -> (1 <= n)%nat ->
  (1 <= length (slice s 0 (Z.of_nat n)) <= n)%nat.
Proof.
  intros Hs Hn. rewrite slice_prefix, length_take.
  destruct s; [done|]. cbn [length]. lia.
Qed.

End SliceFacts.

(** * Properties of the fallback selector *)

Section FallbackFacts.

Lemma pool_length : length pool = 5%nat.
Proof. reflexivity. Qed.

(** The index expression reads the two variables, with their defaults,
    and leaves the world as it was. *)
Lemma fallback_idx_run (w : World) :
  fallback_idx w =
    (Ret ((length (default (u "x") (environ w !! "HOSTNAME"))
           + length (default (u "0") (environ w !! "PORT"))) mod 5)%nat, w).
Proof. reflexivity. Qed.

Lemma fallback_question_run (w : World) :
  exists item,
    pool !! ((length (default (u "x") (environ w !! "HOSTNAME"))
              + length (default (u "0") (environ w !! "PORT"))) mod 5)%nat
      = Some item
    /\ _fallback_question w = (Ret item, w).
Proof.
  unfold _fallback_question, bind. rewrite fallback_idx_run.
  unfold list_getitem.
  set (i := (_ mod 5)%nat).
  destruct (pool !! i) as [item|] eqn:E.
  - exists item. split; reflexivity.
  - apply lookup_ge_None in E. rewrite pool_length in E.
    assert (i < 5)%nat by (apply Nat.mod_upper_bound; lia). lia.
Qed.

(** The item chosen depends on the environment only. *)
Lemma fallback_question_env (w w' : World) (item : gmap string pystr) :
  environ w' = environ w ->
  _fallback_question w = (Ret item, w) ->
  _fallback_question w' = (Ret item, w').
Proof.
  intros Henv Hrun.
  destruct (fallback_question_run w) as (i1 & H1 & R1).
  destruct (fallback_question_run w') as (i2 & H2 & R2).
  rewrite Henv in H2. rewrite H1 in H2. injection H2 as <-.
  rewrite R1 in Hrun. injection Hrun as <-. exact R2.
Qed.

End FallbackFacts.


(** Every item of the pool has a non-empty prompt of at most 300
    characters and a non-empty solution of at most 100. *)
Lemma pool_items_bounded (i : nat) (item : gmap string pystr) :
  pool !! i = Some item ->
  exists p s,
    item = quiz_item p s
    /\ (1 <= length p <= 300)%nat /\ (1 <= length s <= 100)%nat.
Proof.
  unfold pool. intros H.
  do 5 (destruct i as [|i];
        [ injection H as <-; eexists _, _; split; [reflexivity|];
          vm_compute; lia | ]).
  discriminate H.
Qed.

(** C10: whatever [HOSTNAME] and [PORT] hold, and also when they are absent
    (the defaults ["x"] and ["0"] are then used), the index computed by
    [_fallback_question] lies between 0 and 4, the subscript into the pool
    of five is in bounds, and [_fallback_question] returns an item of the
    pool without raising. *)
Theorem fallback_index_in_bounds (w : World) :
  exists idx item,
    fallback_idx w = (Ret idx, w)
    /\ idx = ((length (default (u "x") (environ w !! "HOSTNAME"))
               + length (default (u "0") (environ w !! "PORT"))) mod 5)%nat
    /\ (0 <= idx <= 4)%nat
    /\ length pool = 5%nat
    /\ pool !! idx = Some item
    /\ _fallback_question w = (Ret item, w).
Proof.
  destruct (fallback_question_run w) as (item & Hlook & Hrun).
  eexists _, item. split; [apply fallback_idx_run|].
  split; [reflexivity|].
  split.
  { pose proof (Nat.mod_upper_bound
      (length (default (u "x") (environ w !! "HOSTNAME"))
       + length (default (u "0") (environ w !! "PORT"))) 5).
    lia. }
  auto using pool_length.
Qed.

(** C3: when [HOSTNAME] is [h] and [PORT] is [p], the index of
    [_fallback_question] is [(len(h) + len(p)) % 5], 5 being the size of the
    pool, and the item at that index is returned; for [HOSTNAME=abc] and
    [PORT=8000] the index is 2 and the item is the question on the author of
    Hamlet. *)
Theorem fallback_index_is_length_sum (w : World) (h p : pystr) :
  environ w !! "HOSTNAME" = Some h ->
  environ w !! "PORT" = Some p ->
  length pool = 5%nat
  /\ fallback_idx w = (Ret ((length h + length p) mod 5)%nat, w)
  /\ (exists item,
        pool !! ((length h + length p) mod 5)%nat = Some item
        /\ _fallback_question w = (Ret item, w))
  /\ (h = u "abc" -> p = u "8000" ->
      fallback_idx w = (Ret 2%nat, w)
      /\ _fallback_question w =
           (Ret (quiz_item (u "Who wrote the play 'Hamlet'?")
                           (u "William Shakespeare")), w)).
Proof.
  intros Hh Hp.
  pose proof (fallback_idx_run w) as Hidx.
  destruct (fallback_question_run w) as (item & Hlook & Hrun).
  rewrite Hh, Hp in Hidx, Hlook. simpl default in Hidx, Hlook.
  split; [apply pool_length|].
  split; [exact Hidx|].
  split; [exists item; auto|].
  intros -> ->. split; [exact Hidx|].
  rewrite Hrun. f_equal. f_equal.
  change (pool !! 2%nat = Some item) in Hlook.
  injection Hlook as <-. reflexivity.
Qed.

Lemma fallback_index_is_length_sum_witness :
  fallback_idx (Demo.offline Demo.env_abc_8000)
    = (Ret 2%nat, Demo.offline Demo.env_abc_8000)
  /\ _fallback_question (Demo.offline Demo.env_abc_8000)
     = (Ret (quiz_item (u "Who wrote the play 'Hamlet'?")
                       (u "William Shakespeare")),
        Demo.offline Demo.env_abc_8000).
Proof.
  destruct (fallback_index_is_length_sum
              (Demo.offline Demo.env_abc_8000) (u "abc") (u "8000"))
    as (_ & _ & _ & H).
  - vm_compute. reflexivity.
  - vm_compute. reflexivity.
  - apply H; reflexivity.
Defined.

(** C5: two calls of [_fallback_question] in worlds that agree on
    [HOSTNAME] and on [PORT] (set to the same value, or both absent) return
    the same item, each call leaves its world as it found it, and so do two
    calls in a row. *)
Theorem fallback_deterministic (w1 w2 : World) :
  environ w1 !! "HOSTNAME" = environ w2 !! "HOSTNAME" ->
  environ w1 !! "PORT" = environ w2 !! "PORT" ->
  exists item,
    _fallback_question w1 = (Ret item, w1)
    /\ _fallback_question w2 = (Ret item, w2)
    /\ (let* a := _fallback_question in
        let* b := _fallback_question in
        ret (a, b)) w1 = (Ret (item, item), w1).
Proof.
  intros Hh Hp.
  destruct (fallback_question_run w1) as (i1 & H1 & R1).
  destruct (fallback_question_run w2) as (i2 & H2 & R2).
  rewrite <- Hh, <- Hp, H1 in H2. injection H2 as <-.
  exists i1. split; [exact R1|]. split; [exact R2|].
  unfold bind. rewrite R1, R1. reflexivity.
Qed.

Lemma fallback_deterministic_witness :
  exists item,
    _fallback_question (Demo.offline Demo.env_abc_8000)
      = (Ret item, Demo.offline Demo.env_abc_8000)
    /\ _fallback_question (Demo.online Demo.env_with_key)
       = (Ret item, Demo.online Demo.env_with_key).
Proof.
  destruct (fallback_deterministic
              (Demo.offline Demo.env_abc_8000) (Demo.online Demo.env_with_key))
    as (item & H1 & H2 & _).
  - vm_compute. reflexivity.
  - vm_compute. reflexivity.
  - exists item. split; assumption.
Defined.

(** * Properties of the status endpoint *)

Section StatusFacts.

Lemma initial_response_dom :
  dom initial_response
  = ({[ "backend"; "database"; "database_url"; "database_name";
        "connection_status"; "collections" ]} : gset string).
Proof.
  unfold initial_response. rewrite !dom_insert_L, dom_singleton_L. set_solver.
Qed.

(** What the body leaves in the dictionary it started from: the two
    presence fields are written last, over a dictionary that has the keys
    it had and, after a successful enumeration, the first ten names. *)
Lemma test_database_body_run (w : World) (r0 : gmap string pyval) :
  exists r1,
    test_database_body w r0 =
      (Ret tt,
       <["database_name" :=
           VStr (if truthy_env (environ w !! "DATABASE_NAME")
                 then check_mark ++ u " Set" else cross_mark ++ u " Not Set")]>
         (<["database_url" :=
              VStr (if truthy_env (environ w !! "DATABASE_URL")
                    then check_mark ++ u " Set" else cross_mark ++ u " Not Set")]>
            r1))
    /\ dom r0 ⊆ dom r1
    /\ dom r1 ⊆ dom r0 ∪ {[ "database"; "database_url"; "database_name";
                             "connection_status"; "collections" ]}
    /\ r1 !! "collections" =
         match database_module w with
         | Ret (Some db) =>
             match list_collection_names db with
             | Ret names => Some (VList (slice names 0 10))
             | Raise _ => r0 !! "collections"
             end
         | _ => r0 !! "collections"
         end.
Proof.
  unfold test_database_body, bind, try_except, lift, setitem.
  destruct (database_module w) as [[db|]|e];
    [ destruct (list_collection_names db) as [names|e']
    | | destruct (isinstance_ImportError e) ];
    cbn beta iota;
    (eexists; split; [reflexivity|]);
    rewrite ?dom_insert_L;
    (split; [set_solver|]); (split; [set_solver|]);
    by simplify_map_eq.
Qed.

Lemma test_database_run (w : World) :
  exists r1,
    test_database w =
      (Ret (<["database_name" :=
                VStr (if truthy_env (environ w !! "DATABASE_NAME")
                      then check_mark ++ u " Set" else cross_mark ++ u " Not Set")]>
              (<["database_url" :=
                   VStr (if truthy_env (environ w !! "DATABASE_URL")
                         then check_mark ++ u " Set" else cross_mark ++ u " Not Set")]>
                 r1)), w)
    /\ dom r1 = {[ "backend"; "database"; "database_url"; "database_name";
                   "connection_status"; "collections" ]}
    /\ r1 !! "collections" =
         match database_module w with
         | Ret (Some db) =>
             match list_collection_names db with
             | Ret names => Some (VList (slice names 0 10))
             | Raise _ => Some (VList [])
             end
         | _ => Some (VList [])
         end.
Proof.
  destruct (test_database_body_run w initial_response)
    as (r1 & Hrun & Hsub1 & Hsub2 & Hcol).
  exists r1. unfold test_database. rewrite Hrun.
  split; [reflexivity|]. split.
  - rewrite initial_response_dom in Hsub1, Hsub2. set_solver.
  - exact Hcol.
Qed.

End StatusFacts.

(** C7: whatever the database collaborator does -- the module is absent,
    its import fails, the handle is [None], the enumeration succeeds or
    fails -- [test_database] returns, and the mapping it returns has exactly
    the six keys [backend], [database], [database_url], [database_name],
    [connection_status] and [collections]. *)
Theorem test_database_has_all_keys (w : World) :
  exists r,
    test_database w = (Ret r, w)
    /\ dom r = {[ "backend"; "database"; "database_url"; "database_name";
                  "connection_status"; "collections" ]}.
Proof.
  destruct (test_database_run w) as (r1 & Hrun & Hdom & _).
  eexists. split; [exact Hrun|].
  rewrite !dom_insert_L, Hdom. set_solver.
Qed.

(** C8: when the database handle enumerates the list [names], the
    [collections] field of the response of [test_database] is the first ten
    names of that list, so at most ten names. *)
Theorem test_database_collections_first_ten
    (w : World) (db : db_handle) (names : list pystr) :
  database_module w = Ret (Some db) ->
  list_collection_names db = Ret names ->
  exists r,
    test_database w = (Ret r, w)
    /\ r !! "collections" = Some (VList (take 10 names))
    /\ (length (take 10 names) <= 10)%nat.
Proof.
  intros Hdb Hnames.
  destruct (test_database_run w) as (r1 & Hrun & _ & Hcol).
  rewrite Hdb, Hnames in Hcol.
  change 10 with (Z.of_nat 10) in Hcol. rewrite slice_prefix in Hcol.
  eexists. split; [exact Hrun|]. split.
  - by simplify_map_eq.
  - rewrite length_take. lia.
Qed.

Lemma test_database_collections_first_ten_witness :
  exists r,
    test_database (Demo.with_database ∅) = (Ret r, Demo.with_database ∅)
    /\ r !! "collections" =
         Some (VList [ u "c01"; u "c02"; u "c03"; u "c04"; u "c05";
                       u "c06"; u "c07"; u "c08"; u "c09"; u "c10" ]).
Proof.
  destruct (test_database_collections_first_ten
              (Demo.with_database ∅)
              {| db_name := Some (VStr (u "trivia"));
                 list_collection_names := Ret Demo.twelve_names |}
              Demo.twelve_names)
    as (r & Hrun & Hcol & _).
  - reflexivity.
  - reflexivity.
  - exists r. split; [exact Hrun | exact Hcol].
Defined.

(** C9, as stated, fails: it is not true that two runs whose environments
    agree on which of [DATABASE_URL] and [DATABASE_NAME] are set report the
    same [database_url] and [database_name].  With [DATABASE_URL] set to the
    empty string in one run and to an address in the other, the first
    reports it as not set and the second as set. *)
Lemma presence_alone_does_not_fix_status :
  ~ (forall (w1 w2 : World) (r1 r2 : gmap string pyval),
       (is_Some (environ w1 !! "DATABASE_URL")
        <-> is_Some (environ w2 !! "DATABASE_URL")) ->
       (is_Some (environ w1 !! "DATABASE_NAME")
        <-> is_Some (environ w2 !! "DATABASE_NAME")) ->
       test_database w1 = (Ret r1, w1) ->
       test_database w2 = (Ret r2, w2) ->
       r1 !! "database_url" = r2 !! "database_url"
       /\ r1 !! "database_name" = r2 !! "database_name").
Proof.
  intros Hclaim.
  destruct (test_database_run (Demo.offline Demo.env_url_empty))
    as (a1 & Hrun1 & _).
  destruct (test_database_run (Demo.offline Demo.env_url_address))
    as (a2 & Hrun2 & _).
  destruct (fun Hu Hn => Hclaim _ _ _ _ Hu Hn Hrun1 Hrun2) as [Hurl _].
  { split; intros _; vm_compute; eauto. }
  { split; intros [? Hx]; vm_compute in Hx; discriminate Hx. }
  rewrite lookup_insert_ne, lookup_insert_eq in Hurl by done.
  rewrite lookup_insert_ne, lookup_insert_eq in Hurl by done.
  vm_compute in Hurl. discriminate Hurl.
Qed.

(** C9, amended: the [database_url] and [database_name] fields of the
    response of [test_database] depend only on whether [DATABASE_URL] and
    [DATABASE_NAME] hold a non-empty string (a variable that is absent or
    set to the empty string is reported as not set), not on the value and
    not on anything the database collaborator provides: two runs whose
    environments agree on that report the same two fields, each of which is
    the "set" or the "not set" message. *)
Theorem status_fields_depend_on_nonempty_presence (w1 w2 : World) :
  truthy_env (environ w1 !! "DATABASE_URL")
    = truthy_env (environ w2 !! "DATABASE_URL") ->
  truthy_env (environ w1 !! "DATABASE_NAME")
    = truthy_env (environ w2 !! "DATABASE_NAME") ->
  exists r1 r2,
    test_database w1 = (Ret r1, w1)
    /\ test_database w2 = (Ret r2, w2)
    /\ r1 !! "database_url" = r2 !! "database_url"
    /\ r1 !! "database_name" = r2 !! "database_name"
    /\ r1 !! "database_url" =
         Some (VStr (if truthy_env (environ w1 !! "DATABASE_URL")
                     then check_mark ++ u " Set"
                     else cross_mark ++ u " Not Set"))
    /\ r1 !! "database_name" =
         Some (VStr (if truthy_env (environ w1 !! "DATABASE_NAME")
                     then check_mark ++ u " Set"
                     else cross_mark ++ u " Not Set")).
Proof.
  intros Hurl Hname.
  destruct (test_database_run w1) as (a1 & Hrun1 & _).
  destruct (test_database_run w2) as (a2 & Hrun2 & _).
  eexists _, _. split; [exact Hrun1|]. split; [exact Hrun2|].
  rewrite <- Hurl, <- Hname.
  repeat split; by simplify_map_eq.
Qed.

Lemma status_fields_depend_on_nonempty_presence_witness :
  exists r1 r2,
    test_database (Demo.with_database Demo.env_url_address)
      = (Ret r1, Demo.with_database Demo.env_url_address)
    /\ test_database
         (Demo.offline {[ "DATABASE_URL" := u "postgres://db/quiz" ]})
       = (Ret r2, Demo.offline {[ "DATABASE_URL" := u "postgres://db/quiz" ]})
    /\ r1 !! "database_url" = r2 !! "database_url"
    /\ r1 !! "database_name" = r2 !! "database_name".
Proof.
  destruct (status_fields_depend_on_nonempty_presence
              (Demo.with_database Demo.env_url_address)
              (Demo.offline {[ "DATABASE_URL" := u "postgres://db/quiz" ]}))
    as (r1 & r2 & H1 & H2 & Hu & Hn & _).
  - vm_compute. reflexivity.
  - vm_compute. reflexivity.
  - exists r1, r2. auto.
Defined.

(** * Properties of the quiz endpoint *)

Section QuizFacts.

Variable json_loads : pystr -> outcome json.
Variable py_repr : json -> pystr.

(** Subscripting does not touch the state. *)
Lemma getitem_key_run {S} (v : json) (k : pystr) (s : S) :
  getitem_key v k s = (fst (getitem_key v k tt), s).
Proof.
  unfold getitem_key. destruct v; try reflexivity.
  destruct (assoc k d); reflexivity.
Qed.

Lemma getitem_idx_run {S} (v : json) (i : nat) (s : S) :
  getitem_idx v i s = (fst (getitem_idx v i tt), s).
Proof.
  unfold getitem_idx. destruct v; try reflexivity.
  - destruct (s0 !! i); reflexivity.
  - destruct (l !! i); reflexivity.
Qed.

Lemma candidate_text_run {S} (data : json) (s : S) :
  candidate_text data s = (fst (candidate_text data tt), s).
Proof.
  unfold candidate_text, bind.
  rewrite (getitem_key_run data _ s).
  destruct (getitem_key data (u "candidates") tt) as [[cands|e] []];
    cbn [fst]; [|reflexivity].
  rewrite (getitem_idx_run cands _ s).
  destruct (getitem_idx cands 0 tt) as [[cand|e] []];
    cbn [fst]; [|reflexivity].
  rewrite (getitem_key_run cand _ s).
  destruct (getitem_key cand (u "content") tt) as [[content|e] []];
    cbn [fst]; [|reflexivity].
  rewrite (getitem_key_run content _ s).
  destruct (getitem_key content (u "parts") tt) as [[parts|e] []];
    cbn [fst]; [|reflexivity].
  rewrite (getitem_idx_run parts _ s).
  destruct (getitem_idx parts 0 tt) as [[part|e] []];
    cbn [fst]; [|reflexivity].
  apply getitem_key_run.
Qed.

(** The inner [try] binds [text] to [text_of data]. *)
Lemma text_run {S} (data : json) (s : S) :
  try_except (candidate_text data) (fun _ => ret JNull) s
  = (Ret (text_of data), s).
Proof.
  unfold try_except, text_of. rewrite candidate_text_run.
  destruct (fst (candidate_text data tt)); reflexivity.
Qed.

Lemma get_quiz_run (w : World) (key : pystr) (item : gmap string pystr) :
  environ w !! "GEMINI_API_KEY" = Some key ->
  key <> [] ->
  _fallback_question w = (Ret item, w) ->
  get_quiz json_loads py_repr w =
    (Ret match upstream_item json_loads py_repr
                 (upstream w (requests_sent w) key) with
         | Some (p, s) => quiz_item (slice p 0 300) (slice s 0 100)
         | None => item
         end,
     count_request w).
Proof.
  intros Hkey Hne Hfb.
  assert (Hfb' : _fallback_question (count_request w)
                 = (Ret item, count_request w))
    by (apply (fallback_question_env w (count_request w));
        [reflexivity | exact Hfb]).
  unfold get_quiz. unfold bind at 1. unfold os_getenv. rewrite Hkey.
  destruct key as [|c key]; [done|].
  unfold try_except at 1. unfold bind at 1. unfold requests_post.
  unfold upstream_item.
  destruct (upstream w (requests_sent w) (c :: key)) as [resp|e];
    [|exact Hfb'].
  unfold bind at 1. unfold raise_for_status.
  destruct ((400 <=? status_code resp) && (status_code resp <? 600));
    [exact Hfb'|].
  cbv beta iota. unfold ret at 1. cbv beta iota.
  unfold bind at 1. unfold lift at 1.
  destruct (json_body resp) as [data|e]; [|exact Hfb'].
  unfold bind at 1. rewrite text_run.
  destruct (text_of data) as [ | b | z | f | text | l | d ].
  1-4, 6-7:
    destruct (truthy _); cbn [negb];
    unfold bind, method_strip, raise_cls, raise; cbv beta iota;
    rewrite Hfb'; reflexivity.
  destruct text as [|c0 text]; [cbn [truthy negb]; rewrite Hfb'; reflexivity|].
  cbn [truthy negb]. unfold bind at 1. unfold method_strip at 1.
  unfold ret at 1. cbv beta iota.
  change (strip_chars (u "`") (strip (c0 :: text))) with (clean (c0 :: text)).
  set (t := clean (c0 :: text)).
  change (slice t (find t (chr "{")) (rfind t (chr "}") + 1)) with (located t).
  destruct ((find t (chr "{") =? -1) || (rfind t (chr "}") =? -1));
    [rewrite Hfb'; reflexivity|].
  unfold bind at 1. unfold lift at 1.
  destruct (json_loads (located t)) as [obj|e]; [|exact Hfb'].
  destruct obj as [ | b | z | f | s | l | d ].
  1-6: unfold bind, method_get, raise_cls, raise; cbv beta iota; exact Hfb'.
  unfold bind, method_get, ret. cbv beta iota.
  change (strip (py_str py_repr (default (JStr []) (assoc (u "prompt") d))))
    with (field py_repr d (u "prompt")).
  change (strip (py_str py_repr (default (JStr []) (assoc (u "solution") d))))
    with (field py_repr d (u "solution")).
  destruct (field py_repr d (u "prompt")) as [|p0 p];
    [rewrite Hfb'; reflexivity|].
  destruct (field py_repr d (u "solution")) as [|s0 s];
    [rewrite Hfb'; reflexivity|].
  reflexivity.
Qed.

Lemma get_quiz_no_key (w : World) :
  truthy_env (environ w !! "GEMINI_API_KEY") = false ->
  get_quiz json_loads py_repr w = _fallback_question w.
Proof.
  intros Hkey. unfold get_quiz. unfold bind at 1. unfold os_getenv.
  destruct (environ w !! "GEMINI_API_KEY") as [[|c key]|]; done.
Qed.

Lemma upstream_item_nonempty (o : outcome response) (p s : pystr) :
  upstream_item json_loads py_repr o = Some (p, s) -> p <> [] /\ s <> [].
Proof.
  unfold upstream_item. intros H.
  repeat match type of H with
         | match ?x with _ => _ end = _ => destruct x; try discriminate H
         | (if ?x then _ else _) = _ => destruct x; try discriminate H
         end.
  injection H as <- <-. split; discriminate.
Qed.

Lemma unusable_no_item (o : outcome response) :
  unusable json_loads py_repr o ->
  upstream_item json_loads py_repr o = None.
Proof.
  intros H.
  destruct H as
    [ e | resp Hst | resp e Hb | resp data e Hb Ht | resp data v Hb Ht Hv
    | resp data Hb Ht | resp data text Hb Ht Hf | resp data text e Hb Ht Hl
    | resp data text v Hb Ht Hl Hv | resp data text d Hb Ht Hl Hf ];
    unfold upstream_item; try reflexivity;
    destruct ((400 <=? status_code resp) && (status_code resp <? 600)) eqn:Est;
    try reflexivity;
    try (exfalso; apply andb_false_iff in Est; lia);
    rewrite Hb; try reflexivity;
    unfold text_of; rewrite Ht; try reflexivity.
  - destruct v; try reflexivity. by destruct (Hv s).
  - destruct Hf as [-> | ->]; [reflexivity | by rewrite orb_true_r].
  - destruct (_ || _); [reflexivity|]. by rewrite Hl.
  - destruct (_ || _); [reflexivity|]. rewrite Hl.
    destruct v; try reflexivity. by destruct (Hv d).
  - destruct (_ || _); [reflexivity|]. rewrite Hl.
    destruct Hf as [-> | ->]; [reflexivity|].
    by destruct (field py_repr d (u "prompt")).
Qed.

End QuizFacts.

Section QuizClaims.

Variable json_loads : pystr -> outcome json.
Variable py_repr : json -> pystr.


(** C2: the dictionary [get_quiz] returns, from the upstream as well as
    from the pool, holds a prompt of 1 to 300 characters and a solution of
    1 to 100 characters. *)
Theorem get_quiz_item_bounds (w : World) :
  exists item w' p s,
    get_quiz json_loads py_repr w = (Ret item, w')
    /\ item !! "prompt" = Some p
    /\ item !! "solution" = Some s
    /\ (1 <= length p <= 300)%nat
    /\ (1 <= length s <= 100)%nat.
Proof.
  destruct (fallback_question_run w) as (fb & Hlook & Hfb).
  destruct (pool_items_bounded _ _ Hlook) as (fp & fs & -> & Hfp & Hfs).
  destruct (truthy_env (environ w !! "GEMINI_API_KEY")) eqn:Hkey.
  - destruct (environ w !! "GEMINI_API_KEY") as [[|c key]|] eqn:Hget;
      try discriminate Hkey.
    rewrite (get_quiz_run json_loads py_repr w (c :: key) _ Hget
               ltac:(discriminate) Hfb).
    destruct (upstream_item _ _ _) as [[p s]|] eqn:Hitem.
    + apply upstream_item_nonempty in Hitem as [Hp Hs].
      eexists _, _, _, _. split; [reflexivity|].
      split; [reflexivity|]. split; [reflexivity|].
      split.
      * apply (prefix_bounded p 300 Hp). lia.
      * apply (prefix_bounded s 100 Hs). lia.
    + eexists _, _, _, _. split; [reflexivity|].
      split; [reflexivity|]. split; [reflexivity|]. auto.
  - rewrite (get_quiz_no_key _ _ _ Hkey), Hfb.
    eexists _, _, _, _. split; [reflexivity|].
    split; [reflexivity|]. split; [reflexivity|]. auto.
Qed.

(** C4: when no API credential is configured ([GEMINI_API_KEY] is absent,
    or empty), [get_quiz] returns the item [_fallback_question] selects,
    one of the five items of the pool, and sends no request. *)
Theorem get_quiz_without_key (w : World) :
  environ w !! "GEMINI_API_KEY" = None
  \/ environ w !! "GEMINI_API_KEY" = Some ([] : pystr) ->
  exists item,
    get_quiz json_loads py_repr w = (Ret item, w)
    /\ _fallback_question w = (Ret item, w)
    /\ item ∈ pool
    /\ length pool = 5%nat.
Proof.
  intros Hkey.
  destruct (fallback_question_run w) as (fb & Hlook & Hfb).
  assert (Hfalse : truthy_env (environ w !! "GEMINI_API_KEY") = false).
  { destruct Hkey as [Hk | Hk]; rewrite Hk; reflexivity. }
  exists fb. rewrite (get_quiz_no_key _ _ _ Hfalse), Hfb.
  split; [reflexivity|]. split; [reflexivity|].
  split; [|apply pool_length].
  apply list_elem_of_lookup. eauto.
Qed.

(** C6: when a key is configured, the upstream answers with a status that
    is not an error, the text extracted from its JSON body is a string in
    which, once trimmed of white space and backticks, the span from the
    first opening brace to the last closing brace decodes to an object,
    and the [prompt] and [solution] fields of that object are non-empty
    after conversion to a string and trimming, then [get_quiz] returns
    exactly those trimmed strings cut to their first 300 and first 100
    characters. *)
Theorem get_quiz_returns_upstream_item
    (w : World) (key : pystr) (resp : response) (data : json)
    (text : pystr) (d : list (pystr * json)) (pv sv : json) :
  environ w !! "GEMINI_API_KEY" = Some key ->
  key <> [] ->
  upstream w (requests_sent w) key = Ret resp ->
  ~ (400 <= status_code resp < 600) ->
  json_body resp = Ret data ->
  candidate_text data w = (Ret (JStr text), w) ->
  find (clean text) (chr "{") <> -1 ->
  rfind (clean text) (chr "}") <> -1 ->
  json_loads (located (clean text)) = Ret (JDict d) ->
  assoc (u "prompt") d = Some pv ->
  assoc (u "solution") d = Some sv ->
  strip (py_str py_repr pv) <> [] ->
  strip (py_str py_repr sv) <> [] ->
  get_quiz json_loads py_repr w =
    (Ret (quiz_item (take 300 (strip (py_str py_repr pv)))
                    (take 100 (strip (py_str py_repr sv)))),
     count_request w)
  /\ (length (take 300 (strip (py_str py_repr pv))) <= 300)%nat
  /\ (length (take 100 (strip (py_str py_repr sv))) <= 100)%nat.
Proof.
  intros Hget Hne Hup Hst Hbody Htext Hfind Hrfind Hloads Hp Hs Hpne Hsne.
  destruct (fallback_question_run w) as (fb & _ & Hfb).
  split; [|rewrite !length_take; lia].
  rewrite (get_quiz_run json_loads py_repr w key _ Hget Hne Hfb).
  unfold upstream_item. rewrite Hup.
  destruct ((400 <=? status_code resp) && (status_code resp <? 600)) eqn:E;
    [apply andb_true_iff in E; lia|].
  rewrite Hbody. unfold text_of.
  rewrite candidate_text_run in Htext. injection Htext as ->.
  apply Z.eqb_neq in Hfind, Hrfind. rewrite Hfind, Hrfind. cbn [orb].
  rewrite Hloads. unfold field. rewrite Hp, Hs. cbn [from_option id].
  destruct (strip (py_str py_repr pv)) as [|p0 p]; [done|].
  destruct (strip (py_str py_repr sv)) as [|s0 s]; [done|].
  change 300 with (Z.of_nat 300). change 100 with (Z.of_nat 100).
  rewrite !slice_prefix. reflexivity.
Qed.

End QuizClaims.



Lemma get_quiz_without_key_witness :
  exists item,
    get_quiz Demo.json_loads Demo.py_repr (Demo.offline Demo.env_abc_8000)
      = (Ret item, Demo.offline Demo.env_abc_8000)
    /\ item ∈ pool.
Proof.
  destruct (get_quiz_without_key Demo.json_loads Demo.py_repr
              (Demo.offline Demo.env_abc_8000))
    as (item & Hrun & _ & Hin & _).
  - left. vm_compute. reflexivity.
  - exists item. split; assumption.
Defined.

Lemma get_quiz_returns_upstream_item_witness :
  get_quiz Demo.json_loads Demo.py_repr (Demo.online Demo.env_with_key)
  = (Ret (quiz_item (u "What is the capital of France?") (u "Paris")),
     count_request (Demo.online Demo.env_with_key)).
Proof.
  destruct (get_quiz_returns_upstream_item Demo.json_loads Demo.py_repr
              (Demo.online Demo.env_with_key) (u "secret")
              {| status_code := 200; json_body := Ret Demo.answer |}
              Demo.answer Demo.model_text
              [ (u "prompt", JStr (u " What is the capital of France? "));
                (u "solution", JStr (u "Paris")) ]
              (JStr (u " What is the capital of France? "))
              (JStr (u "Paris")))
    as [H _].
  - vm_compute. reflexivity.
  - vm_compute. discriminate.
  - reflexivity.
  - simpl. lia.
  - reflexivity.
  - vm_compute. reflexivity.
  - vm_compute. discriminate.
  - vm_compute. discriminate.
  - vm_compute. reflexivity.
  - vm_compute. reflexivity.
  - vm_compute. reflexivity.
  - vm_compute. discriminate.
  - vm_compute. discriminate.
  - exact H.
Defined.

(** * Further properties of the fallback selector *)

Lemma pool_nodup : NoDup pool.
Proof. apply (bool_decide_unpack _). vm_compute. reflexivity. Qed.

(** X6: The selection is a function of [(len(HOSTNAME) + len(PORT)) % 5] and of
    nothing else: two environments select the same item exactly when that
    residue is the same, whatever the two variables hold. *)
Theorem fallback_item_iff_residue (w1 w2 : World) :
  fst (_fallback_question w1) = fst (_fallback_question w2)
  <-> ((length (default (u "x") (environ w1 !! "HOSTNAME"))
        + length (default (u "0") (environ w1 !! "PORT"))) mod 5
       = (length (default (u "x") (environ w2 !! "HOSTNAME"))
          + length (default (u "0") (environ w2 !! "PORT"))) mod 5)%nat.
Proof.
  destruct (fallback_question_run w1) as (i1 & H1 & R1).
  destruct (fallback_question_run w2) as (i2 & H2 & R2).
  rewrite R1, R2. cbn [fst]. split.
  - intros Heq. injection Heq as <-.
    exact (NoDup_lookup _ _ _ _ pool_nodup H1 H2).
  - intros Heq. rewrite Heq, H2 in H1. by injection H1 as ->.
Qed.

Lemma fallback_item_iff_residue_witness :
  fst (_fallback_question (Demo.offline Demo.env_abc_8000))
  = fst (_fallback_question (Demo.offline DemoMore.env_bare)).
Proof.
  apply (fallback_item_iff_residue
           (Demo.offline Demo.env_abc_8000) (Demo.offline DemoMore.env_bare)).
  vm_compute. reflexivity.
Defined.

(** X7: No item of the pool is out of reach: for each of them some value of
    [HOSTNAME], with an empty [PORT], makes [_fallback_question] return
    it. *)
Theorem fallback_reaches_every_item (item : gmap string pystr) :
  item ∈ pool ->
  exists h : pystr,
    forall w,
      environ w !! "HOSTNAME" = Some h ->
      environ w !! "PORT" = Some ([] : pystr) ->
      _fallback_question w = (Ret item, w).
Proof.
  intros Hin. apply list_elem_of_lookup in Hin as [i Hi].
  assert (Hlt : (i < 5)%nat)
    by (rewrite <- pool_length; eapply lookup_lt_Some; eauto).
  exists (replicate i 0%N). intros w Hh Hp.
  destruct (fallback_question_run w) as (it & Hlook & Hrun).
  rewrite Hh, Hp in Hlook. cbn [from_option id] in Hlook.
  rewrite length_replicate in Hlook. cbn [length] in Hlook.
  rewrite Nat.add_0_r, Nat.mod_small in Hlook by exact Hlt.
  rewrite Hi in Hlook. injection Hlook as <-. exact Hrun.
Qed.

Lemma fallback_reaches_every_item_witness :
  exists h : pystr,
    forall w,
      environ w !! "HOSTNAME" = Some h ->
      environ w !! "PORT" = Some ([] : pystr) ->
      _fallback_question w
      = (Ret (quiz_item
                (u "What is the Big-O time complexity of binary search on a sorted array?")
                (u "O(log n)")), w).
Proof.
  apply (fallback_reaches_every_item
           (quiz_item
              (u "What is the Big-O time complexity of binary search on a sorted array?")
              (u "O(log n)"))).
  apply list_elem_of_lookup. exists 4%nat. reflexivity.
Defined.

(** * Further properties of the quiz endpoint *)

Section StripFacts.

Variable f : pychar -> bool.

Lemma lstrip_by_head (s : pystr) (c : pychar) (r : pystr) :
  lstrip_by f s = c :: r -> f c = false.
Proof.
  induction s as [|d s IH]; cbn [lstrip_by]; [discriminate|].
  destruct (f d) eqn:E; [exact IH|].
  intros H. injection H as <- _. exact E.
Qed.

Lemma lstrip_by_suffix (s : pystr) :
  exists k, lstrip_by f s = drop k s.
Proof.
  induction s as [|d s [k IH]]; cbn [lstrip_by]; [by exists 0%nat|].
  destruct (f d); [by exists (S k) | by exists 0%nat].
Qed.

Lemma rstrip_by_prefix (s : pystr) :
  exists k, rstrip_by f s = take k s.
Proof.
  unfold rstrip_by. destruct (lstrip_by_suffix (rev s)) as [k ->].
  exists (length s - k)%nat.
  rewrite skipn_rev. apply rev_involutive.
Qed.

(** What [strip] returns does not begin with a stripped character. *)
Lemma strip_by_head (s : pystr) (c : pychar) (r : pystr) :
  strip_by f s = c :: r -> f c = false.
Proof.
  unfold strip_by. destruct (rstrip_by_prefix (lstrip_by f s)) as [k ->].
  destruct (lstrip_by f s) as [|d l] eqn:E; [by rewrite take_nil|].
  destruct k; [discriminate|]. cbn [take]. intros H. injection H as <- _.
  exact (lstrip_by_head _ _ _ E).
Qed.

End StripFacts.

Lemma pool_items_no_leading_space (i : nat) (item : gmap string pystr) :
  pool !! i = Some item ->
  exists pc p sc s,
    item = quiz_item (pc :: p) (sc :: s)
    /\ isspace pc = false /\ isspace sc = false.
Proof.
  unfold pool. intros H.
  do 5 (destruct i as [|i];
        [ injection H as <-; eexists _, _, _, _; split; [reflexivity|];
          split; reflexivity | ]).
  discriminate H.
Qed.

Section QuizMore.

Variable json_loads : pystr -> outcome json.
Variable py_repr : json -> pystr.

(** X1: Request accounting: a call of [get_quiz] sends exactly one request when
    [GEMINI_API_KEY] holds a non-empty string -- also when that request
    fails, so there is no retry -- and none otherwise; the environment, the
    database module and the upstream are left as they were. *)
Theorem get_quiz_sends_at_most_one_request (w : World) :
  exists item w',
    get_quiz json_loads py_repr w = (Ret item, w')
    /\ environ w' = environ w
    /\ database_module w' = database_module w
    /\ upstream w' = upstream w
    /\ requests_sent w'
       = (requests_sent w
          + if truthy_env (environ w !! "GEMINI_API_KEY") then 1 else 0)%nat.
Proof.
  destruct (fallback_question_run w) as (fb & _ & Hfb).
  destruct (truthy_env (environ w !! "GEMINI_API_KEY")) eqn:Hkey.
  - destruct (environ w !! "GEMINI_API_KEY") as [[|c key]|] eqn:Hget;
      try discriminate Hkey.
    rewrite (get_quiz_run json_loads py_repr w (c :: key) _ Hget
               ltac:(discriminate) Hfb).
    eexists _, _. split; [reflexivity|].
    cbn [count_request environ database_module upstream requests_sent].
    repeat split. lia.
  - rewrite (get_quiz_no_key _ _ _ Hkey), Hfb.
    eexists _, _. split; [reflexivity|]. repeat split. lia.
Qed.

(** What yields no item is one of the failures. *)
Lemma upstream_item_none_unusable (o : outcome response) :
  upstream_item json_loads py_repr o = None ->
  unusable json_loads py_repr o.
Proof.
  unfold upstream_item. destruct o as [resp|e]; [|intros _; constructor].
  destruct ((400 <=? status_code resp) && (status_code resp <? 600)) eqn:Est.
  { intros _. apply error_status. apply andb_true_iff in Est. lia. }
  destruct (json_body resp) as [data|e] eqn:Hb;
    [|intros _; eapply body_not_json; eauto].
  unfold text_of.
  destruct (fst (candidate_text data tt)) as [v|e] eqn:Ht;
    [|intros _; eapply text_missing; eauto].
  destruct v as [ | b | z | fl | text | l | d ];
    try (intros _; eapply text_not_a_string; eauto; discriminate).
  destruct ((find (clean text) (chr "{") =? -1)
            || (rfind (clean text) (chr "}") =? -1)) eqn:Ef.
  { intros _. eapply object_absent; eauto.
    apply orb_true_iff in Ef as [E|E]; apply Z.eqb_eq in E; auto. }
  destruct (json_loads (located (clean text))) as [obj|e] eqn:Hl;
    [|intros _; eapply object_undecodable; eauto].
  destruct obj as [ | b | z | fl | s | l | d ];
    try (intros _; eapply object_not_a_dict; eauto; discriminate).
  destruct (field py_repr d (u "prompt")) as [|p0 p] eqn:Hp.
  { intros _. eapply field_empty; eauto. }
  destruct (field py_repr d (u "solution")) as [|s0 s] eqn:Hs.
  { intros _. eapply field_empty; eauto. }
  discriminate.
Qed.

(** What yields an item has passed every step. *)
Lemma upstream_item_some_inv (o : outcome response) (p s : pystr) :
  upstream_item json_loads py_repr o = Some (p, s) ->
  exists resp data text d,
    o = Ret resp
    /\ ~ (400 <= status_code resp < 600)
    /\ json_body resp = Ret data
    /\ fst (candidate_text data tt) = Ret (JStr text)
    /\ find (clean text) (chr "{") <> -1
    /\ rfind (clean text) (chr "}") <> -1
    /\ json_loads (located (clean text)) = Ret (JDict d)
    /\ field py_repr d (u "prompt") = p
    /\ field py_repr d (u "solution") = s.
Proof.
  unfold upstream_item. destruct o as [resp|e]; [|discriminate].
  destruct ((400 <=? status_code resp) && (status_code resp <? 600)) eqn:Est;
    [discriminate|].
  destruct (json_body resp) as [data|e] eqn:Hb; [|discriminate].
  unfold text_of.
  destruct (fst (candidate_text data tt)) as [v|e] eqn:Ht; [|discriminate].
  destruct v as [ | b | z | fl | text | l | d ]; try discriminate.
  destruct ((find (clean text) (chr "{") =? -1)
            || (rfind (clean text) (chr "}") =? -1)) eqn:Ef; [discriminate|].
  destruct (json_loads (located (clean text))) as [obj|e] eqn:Hl;
    [|discriminate].
  destruct obj as [ | b | z | fl | s' | l | d ]; try discriminate.
  destruct (field py_repr d (u "prompt")) as [|p0 p'] eqn:Hp; [discriminate|].
  destruct (field py_repr d (u "solution")) as [|s0 s''] eqn:Hs;
    [discriminate|].
  intros H. injection H as <- <-.
  apply orb_false_iff in Ef as [E1 E2].
  apply Z.eqb_neq in E1, E2. apply andb_false_iff in Est.
  exists resp, data, text, d. repeat split; auto. lia.
Qed.

End QuizMore.

Section QuizOutcomes.

Variable json_loads : pystr -> outcome json.
Variable py_repr : json -> pystr.

(** X2: With a key configured there is no third outcome: either the upstream's
    answer is one of the failures and [get_quiz] returns the item
    [_fallback_question] selects, or the answer passed every step and
    [get_quiz] returns the two trimmed fields of the decoded object, cut to
    300 and 100 characters. *)
Theorem get_quiz_fallback_or_upstream (w : World) (key : pystr) :
  environ w !! "GEMINI_API_KEY" = Some key ->
  key <> [] ->
  (unusable json_loads py_repr (upstream w (requests_sent w) key)
   /\ exists item,
        _fallback_question w = (Ret item, w)
        /\ get_quiz json_loads py_repr w = (Ret item, count_request w))
  \/ (exists resp data text d,
        upstream w (requests_sent w) key = Ret resp
        /\ ~ (400 <= status_code resp < 600)
        /\ json_body resp = Ret data
        /\ fst (candidate_text data tt) = Ret (JStr text)
        /\ find (clean text) (chr "{") <> -1
        /\ rfind (clean text) (chr "}") <> -1
        /\ json_loads (located (clean text)) = Ret (JDict d)
        /\ field py_repr d (u "prompt") <> []
        /\ field py_repr d (u "solution") <> []
        /\ get_quiz json_loads py_repr w =
             (Ret (quiz_item (take 300 (field py_repr d (u "prompt")))
                             (take 100 (field py_repr d (u "solution")))),
              count_request w)).
Proof.
  intros Hget Hne.
  destruct (fallback_question_run w) as (fb & _ & Hfb).
  pose proof (get_quiz_run json_loads py_repr w key fb Hget Hne Hfb) as Hrun.
  destruct (upstream_item json_loads py_repr (upstream w (requests_sent w) key))
    as [[p s]|] eqn:Hitem.
  - right.
    destruct (upstream_item_nonempty _ _ _ _ _ Hitem) as [Hp Hs].
    destruct (upstream_item_some_inv _ _ _ _ _ Hitem)
      as (resp & data & text & d & Ho & Hst & Hb & Ht & Hf & Hr & Hl & <- & <-).
    exists resp, data, text, d. repeat (split; [assumption|]).
    cbv beta iota in Hrun. rewrite Hrun.
    change 300 with (Z.of_nat 300). change 100 with (Z.of_nat 100).
    by rewrite !slice_prefix.
  - left. split; [by apply upstream_item_none_unusable|].
    exists fb. split; assumption.
Qed.

(** X3: Neither string of the dictionary [get_quiz] returns begins with a white
    space character, on the upstream path (the fields are trimmed before
    they are cut) as on the fallback path. *)
Theorem get_quiz_no_leading_space (w : World) :
  exists item w' pc p sc s,
    get_quiz json_loads py_repr w = (Ret item, w')
    /\ item !! "prompt" = Some (pc :: p)
    /\ item !! "solution" = Some (sc :: s)
    /\ isspace pc = false
    /\ isspace sc = false.
Proof.
  destruct (fallback_question_run w) as (fb & Hlook & Hfb).
  destruct (pool_items_no_leading_space _ _ Hlook)
    as (fpc & fp & fsc & fs & -> & Hfp & Hfs).
  destruct (truthy_env (environ w !! "GEMINI_API_KEY")) eqn:Hkey.
  - destruct (environ w !! "GEMINI_API_KEY") as [[|c key]|] eqn:Hget;
      try discriminate Hkey.
    rewrite (get_quiz_run json_loads py_repr w (c :: key) _ Hget
               ltac:(discriminate) Hfb).
    destruct (upstream_item _ _ _) as [[p s]|] eqn:Hitem.
    + destruct (upstream_item_some_inv _ _ _ _ _ Hitem)
        as (resp & data & text & d & _ & _ & _ & _ & _ & _ & _ & Hp & Hs).
      apply upstream_item_nonempty in Hitem as [Hpne Hsne].
      destruct p as [|pc p]; [done|]. destruct s as [|sc s]; [done|].
      apply strip_by_head in Hp, Hs.
      change 300 with (Z.of_nat 300). change 100 with (Z.of_nat 100).
      rewrite !slice_prefix.
      eexists _, _, pc, _, sc, _. split; [reflexivity|].
      split; [reflexivity|]. split; [reflexivity|]. auto.
    + eexists _, _, _, _, _, _. split; [reflexivity|].
      split; [reflexivity|]. split; [reflexivity|]. auto.
  - rewrite (get_quiz_no_key _ _ _ Hkey), Hfb.
    eexists _, _, _, _, _, _. split; [reflexivity|].
    split; [reflexivity|]. split; [reflexivity|]. auto.
Qed.

(** X4: A [prompt] that is JSON [null] is not taken as missing: [str(None)] is
    the text [None], and that text is returned as the prompt. *)
Theorem get_quiz_null_prompt_is_text
    (w : World) (key : pystr) (resp : response) (data : json)
    (text : pystr) (d : list (pystr * json)) (sv : json) :
  environ w !! "GEMINI_API_KEY" = Some key ->
  key <> [] ->
  upstream w (requests_sent w) key = Ret resp ->
  ~ (400 <= status_code resp < 600) ->
  json_body resp = Ret data ->
  candidate_text data w = (Ret (JStr text), w) ->
  find (clean text) (chr "{") <> -1 ->
  rfind (clean text) (chr "}") <> -1 ->
  json_loads (located (clean text)) = Ret (JDict d) ->
  assoc (u "prompt") d = Some JNull ->
  assoc (u "solution") d = Some sv ->
  strip (py_str py_repr sv) <> [] ->
  get_quiz json_loads py_repr w =
    (Ret (quiz_item (u "None") (take 100 (strip (py_str py_repr sv)))),
     count_request w).
Proof.
  intros Hget Hne Hup Hst Hbody Htext Hfind Hrfind Hloads Hp Hs Hsne.
  destruct (fallback_question_run w) as (fb & _ & Hfb).
  rewrite (get_quiz_run json_loads py_repr w key _ Hget Hne Hfb).
  unfold upstream_item. rewrite Hup.
  destruct ((400 <=? status_code resp) && (status_code resp <? 600)) eqn:E;
    [apply andb_true_iff in E; lia|].
  rewrite Hbody. unfold text_of.
  rewrite candidate_text_run in Htext. injection Htext as ->.
  apply Z.eqb_neq in Hfind, Hrfind. rewrite Hfind, Hrfind. cbn [orb].
  rewrite Hloads. unfold field. rewrite Hp, Hs. cbn [from_option id].
  change (strip (py_str py_repr JNull)) with (chr "N" :: u "one").
  destruct (strip (py_str py_repr sv)) as [|s0 s]; [done|].
  cbv beta iota.
  change 100 with (Z.of_nat 100). rewrite slice_prefix. reflexivity.
Qed.

End QuizOutcomes.

Lemma get_quiz_fallback_or_upstream_witness :
  exists d,
    get_quiz Demo.json_loads Demo.py_repr (Demo.online Demo.env_with_key) =
      (Ret (quiz_item (take 300 (field Demo.py_repr d (u "prompt")))
                      (take 100 (field Demo.py_repr d (u "solution")))),
       count_request (Demo.online Demo.env_with_key)).
Proof.
  destruct (get_quiz_fallback_or_upstream Demo.json_loads Demo.py_repr
              (Demo.online Demo.env_with_key) (u "secret"))
    as [[Hbad _] | (resp & data & text & d & _ & _ & _ & _ & _ & _ & _ & _ & _ & H)].
  - vm_compute. reflexivity.
  - vm_compute. discriminate.
  - apply unusable_no_item in Hbad. vm_compute in Hbad. discriminate Hbad.
  - exists d. exact H.
Defined.

Lemma get_quiz_null_prompt_is_text_witness :
  get_quiz DemoMore.json_loads_null Demo.py_repr (Demo.online Demo.env_with_key)
  = (Ret (quiz_item (u "None") (u "Paris")),
     count_request (Demo.online Demo.env_with_key)).
Proof.
  apply (get_quiz_null_prompt_is_text DemoMore.json_loads_null Demo.py_repr
           (Demo.online Demo.env_with_key) (u "secret")
           {| status_code := 200; json_body := Ret Demo.answer |}
           Demo.answer Demo.model_text
           [ (u "prompt", JNull); (u "solution", JStr (u "Paris")) ]
           (JStr (u "Paris"))).
  - vm_compute. reflexivity.
  - vm_compute. discriminate.
  - reflexivity.
  - simpl. lia.
  - reflexivity.
  - vm_compute. reflexivity.
  - vm_compute. discriminate.
  - vm_compute. discriminate.
  - vm_compute. reflexivity.
  - vm_compute. reflexivity.
  - vm_compute. reflexivity.
  - vm_compute. discriminate.
Defined.

(** * The text handed to the decoder *)

(** [find] stops at the first occurrence. *)
Lemma find_from_first (c : pychar) (s : pystr) (i : Z) :
  find_from i c s = -1
  \/ exists pre post,
       s = pre ++ c :: post
       /\ (c ∉ pre)
       /\ find_from i c s = i + Z.of_nat (length pre).
Proof.
  revert i. induction s as [|d s IH]; intros i; cbn [find_from]; [by left|].
  destruct (N.eqb_spec d c) as [->|Hne].
  - right. exists [], s. split; [reflexivity|].
    split; [apply not_elem_of_nil | cbn; lia].
  - destruct (IH (i + 1)) as [->|(pre & post & -> & Hpre & ->)]; [by left|].
    right. exists (d :: pre), post. split; [reflexivity|]. split.
    + apply not_elem_of_cons. split; [congruence | exact Hpre].
    + cbn [length]. lia.
Qed.

Lemma rfind_from_none (c : pychar) (s : pystr) (i : Z) :
  0 <= i -> rfind_from i c s = -1 -> c ∉ s.
Proof.
  revert i. induction s as [|d s IH]; intros i Hi; cbn [rfind_from];
    [intros _; apply not_elem_of_nil|].
  destruct (Z.eqb_spec (rfind_from (i + 1) c s) (-1)) as [Hnone|Hfound];
    [|done].
  destruct (N.eqb_spec d c) as [->|Hne]; [lia|]. intros _.
  apply not_elem_of_cons. split; [congruence|].
  apply (IH (i + 1)); [lia | exact Hnone].
Qed.

(** [rfind] stops at the last occurrence. *)
Lemma rfind_from_last (c : pychar) (s : pystr) (i : Z) :
  0 <= i ->
  rfind_from i c s = -1
  \/ exists pre post,
       s = pre ++ c :: post
       /\ (c ∉ post)
       /\ rfind_from i c s = i + Z.of_nat (length pre).
Proof.
  revert i. induction s as [|d s IH]; intros i Hi; cbn [rfind_from];
    [by left|].
  destruct (Z.eqb_spec (rfind_from (i + 1) c s) (-1)) as [Hnone|Hfound].
  - destruct (N.eqb_spec d c) as [->|Hne]; [|by left].
    right. exists [], s. split; [reflexivity|]. split.
    + apply (rfind_from_none c s (i + 1)); [lia | exact Hnone].
    + cbn; lia.
  - destruct (IH (i + 1)) as [Hnone|(pre & post & Hs & Hpost & Hr)];
      [lia | done |].
    right. exists (d :: pre), post. split; [by rewrite Hs|].
    split; [exact Hpost|]. rewrite Hr. cbn [length]. lia.
Qed.

(** X5: When the text has an opening and a closing brace, the string cut out of
    it for [json.loads] is empty if the last closing brace comes before the
    first opening one; otherwise the text splits into what precedes its
    first opening brace, that brace, a middle part, its last closing brace
    and what follows it, and the string cut out is exactly the opening
    brace, the middle part and the closing brace. *)
Theorem located_empty_or_braced (t : pystr) :
  find t (chr "{") <> -1 ->
  rfind t (chr "}") <> -1 ->
  (rfind t (chr "}") < find t (chr "{") /\ located t = [])
  \/ (exists pre mid post,
        t = pre ++ chr "{" :: mid ++ chr "}" :: post
        /\ (chr "{" ∉ pre)
        /\ (chr "}" ∉ post)
        /\ Z.of_nat (length pre) = find t (chr "{")
        /\ Z.of_nat (length pre + 1 + length mid) = rfind t (chr "}")
        /\ located t = chr "{" :: mid ++ [chr "}"]).
Proof.
  unfold located, find, rfind. intros Ha Hb.
  destruct (find_from_first (chr "{") t 0)
    as [|(pre1 & post1 & Ht1 & Hpre1 & Hfa)]; [done|].
  destruct (rfind_from_last (chr "}") t 0 ltac:(lia))
    as [|(pre2 & post2 & Ht2 & Hpost2 & Hfb)]; [done|].
  rewrite Hfa, Hfb. rewrite !Z.add_0_l.
  assert (Hlen1 : (length t = length pre1 + S (length post1))%nat)
    by (rewrite Ht1 at 1; rewrite length_app; reflexivity).
  assert (Hlen2 : (length t = length pre2 + S (length post2))%nat)
    by (rewrite Ht2 at 1; rewrite length_app; reflexivity).
  assert (Hab : length pre1 <> length pre2).
  { intros E.
    assert (Hx : t !! length pre1 = Some (chr "{"))
      by (rewrite Ht1 at 1; apply list_lookup_middle; reflexivity).
    assert (Hy : t !! length pre1 = Some (chr "}"))
      by (rewrite Ht2 at 1; apply list_lookup_middle; exact E).
    rewrite Hx in Hy. discriminate Hy. }
  unfold slice, clamp_index.
  destruct (Z.ltb_spec (Z.of_nat (length pre1)) 0); [lia|].
  destruct (Z.ltb_spec (Z.of_nat (length pre2) + 1) 0); [lia|].
  rewrite (Z.min_l (Z.of_nat (length pre1))) by lia.
  rewrite (Z.min_l (Z.of_nat (length pre2) + 1)) by lia.
  rewrite Nat2Z.id.
  destruct (decide (length pre2 < length pre1)%nat) as [Hlt|Hge].
  - left. split; [lia|].
    replace (Z.to_nat (Z.of_nat (length pre2) + 1 - Z.of_nat (length pre1)))
      with 0%nat by lia.
    reflexivity.
  - right.
    set (mid := take (length pre2 - length pre1 - 1) post1).
    assert (Hpre2 : pre2 = pre1 ++ chr "{" :: mid).
    { rewrite <- (take_app_length pre2 (chr "}" :: post2)), <- Ht2.
      rewrite Ht1 at 1. rewrite take_app_ge by lia.
      replace (length pre2 - length pre1)%nat
        with (S (length pre2 - length pre1 - 1)) by lia.
      reflexivity. }
    assert (Hmid : (length pre2 = length pre1 + 1 + length mid)%nat).
    { rewrite Hpre2 at 1. rewrite length_app. cbn [length]. lia. }
    assert (Ht : t = pre1 ++ chr "{" :: mid ++ chr "}" :: post2).
    { rewrite Ht2 at 1. rewrite Hpre2 at 1. by rewrite <- app_assoc. }
    exists pre1, mid, post2.
    split; [exact Ht|]. split; [exact Hpre1|]. split; [exact Hpost2|].
    split; [reflexivity|]. split; [lia|].
    replace (Z.to_nat (Z.of_nat (length pre2) + 1 - Z.of_nat (length pre1)))
      with (S (length mid + 1)) by lia.
    rewrite Ht at 1. rewrite drop_app_length. cbn [take]. f_equal.
    rewrite take_app_ge by lia.
    replace (length mid + 1 - length mid)%nat with 1%nat by lia.
    reflexivity.
Qed.

Lemma located_empty_or_braced_witness :
  exists pre mid post,
    clean Demo.model_text = pre ++ chr "{" :: mid ++ chr "}" :: post
    /\ located (clean Demo.model_text) = chr "{" :: mid ++ [chr "}"].
Proof.
  destruct (located_empty_or_braced (clean Demo.model_text))
    as [[Hlt _] | (pre & mid & post & Ht & _ & _ & _ & _ & H)].
  - vm_compute. discriminate.
  - vm_compute. discriminate.
  - vm_compute in Hlt. discriminate Hlt.
  - exists pre, mid, post. split; [exact Ht | exact H].
Defined.

(** * Further properties of the status endpoint *)

(** Every field of the response, by what the database module did. *)
Lemma test_database_fields (w : World) :
  exists r,
    test_database w = (Ret r, w)
    /\ r !! "backend" = Some (VStr (check_mark ++ u " Running"))
    /\ r !! "database" =
         Some (VStr
           match database_module w with
           | Ret (Some db) =>
               match list_collection_names db with
               | Ret _ => check_mark ++ u " Connected & Working"
               | Raise e =>
                   warning_sign ++ u "  Connected but Error: "
                     ++ take 50 (exn_str e)
               end
           | Ret None => warning_sign ++ u "  Available but not initialized"
           | Raise e =>
               if isinstance_ImportError e
               then cross_mark
                      ++ u " Database module not found (run enable-database first)"
               else cross_mark ++ u " Error: " ++ take 50 (exn_str e)
           end)
    /\ r !! "connection_status" =
         Some (VStr match database_module w with
                    | Ret (Some _) => u "Connected"
                    | _ => u "Not Connected"
                    end)
    /\ r !! "collections" =
         Some (VList match database_module w with
                     | Ret (Some db) =>
                         match list_collection_names db with
                         | Ret names => take 10 names
                         | Raise _ => []
                         end
                     | _ => []
                     end)
    /\ r !! "database_url" =
         Some (VStr (if truthy_env (environ w !! "DATABASE_URL")
                     then check_mark ++ u " Set"
                     else cross_mark ++ u " Not Set"))
    /\ r !! "database_name" =
         Some (VStr (if truthy_env (environ w !! "DATABASE_NAME")
                     then check_mark ++ u " Set"
                     else cross_mark ++ u " Not Set")).
Proof.
  unfold test_database, test_database_body, bind, try_except, lift, setitem,
    initial_response.
  change 50 with (Z.of_nat 50). change 10 with (Z.of_nat 10).
  destruct (database_module w) as [[db|]|e];
    [ destruct (list_collection_names db) as [names|e']
    | | destruct (isinstance_ImportError e) ];
    cbn beta iota; rewrite ?slice_prefix;
    (eexists; split; [reflexivity|]);
    repeat split; by simplify_map_eq.
Qed.

Lemma test_database_has_keys_and_fields (w : World) :
  exists r,
    test_database w = (Ret r, w)
    /\ dom r = {[ "backend"; "database"; "database_url"; "database_name";
                  "connection_status"; "collections" ]}
    /\ (exists s, r !! "backend" = Some (VStr s))
    /\ (exists s, r !! "database" = Some (VStr s))
    /\ (exists s, r !! "connection_status" = Some (VStr s))
    /\ r !! "collections" =
         Some (VList match database_module w with
                     | Ret (Some db) =>
                         match list_collection_names db with
                         | Ret names => take 10 names
                         | Raise _ => []
                         end
                     | _ => []
                     end)
    /\ (exists s, r !! "database_url" = Some (VStr s))
    /\ (exists s, r !! "database_name" = Some (VStr s)).
Proof.
  destruct (test_database_fields w)
    as (r & Hrun & Hb & Hd & Hc & Hl & Hu & Hn).
  destruct (test_database_run w) as (r1 & Hrun1 & Hdom & _).
  rewrite Hrun in Hrun1. injection Hrun1 as ->.
  eexists. split; [exact Hrun|]. split.
  { rewrite !dom_insert_L, Hdom. set_solver. }
  repeat split; eauto.
Qed.

(** X8: The [database] message is bounded: whatever exception the database
    module or the enumeration raises, and however long its text, the
    message has at most 75 characters, of which at most 50 come from the
    exception. *)
Theorem test_database_message_bounded (w : World) :
  exists r msg,
    test_database w = (Ret r, w)
    /\ r !! "database" = Some (VStr msg)
    /\ (length msg <= 75)%nat.
Proof.
  destruct (test_database_fields w) as (r & Hrun & _ & Hdb & _).
  eexists r, _. split; [exact Hrun|]. split; [exact Hdb|].
  assert (Hcut : forall a b m : pystr,
             (length (a ++ b ++ take 50 m) <= length a + length b + 50)%nat)
    by (intros; rewrite !length_app, length_take; lia).
  destruct (database_module w) as [[db|]|e];
    [ destruct (list_collection_names db) as [names|e']
    | | destruct (isinstance_ImportError e) ];
    try (etransitivity; [apply Hcut|]); vm_compute; lia.
Qed.

(** X9: No field of the response is [None]: the two fields created as [None]
    are always overwritten, also the [name] a database handle provides;
    [collections] is a list of at most ten names and every other field is a
    string. *)
Theorem test_database_fields_typed (w : World) :
  exists r,
    test_database w = (Ret r, w)
    /\ (exists names,
          r !! "collections" = Some (VList names)
          /\ (length names <= 10)%nat)
    /\ (forall k v,
          r !! k = Some v -> k <> "collections" -> exists s, v = VStr s).
Proof.
  destruct (test_database_has_keys_and_fields w)
    as (r & Hrun & Hdom & (sb & Hb) & (sd & Hd) & (sc & Hc) & Hl
        & (su & Hu) & (sn & Hn)).
  exists r. split; [exact Hrun|]. split.
  - eexists. split; [exact Hl|].
    destruct (database_module w) as [[db|]|e]; cbn [length]; try lia.
    destruct (list_collection_names db); cbn [length]; try lia.
    rewrite length_take. lia.
  - intros k v Hk Hne.
    assert (Hin : k ∈ dom r) by (apply elem_of_dom; eauto).
    rewrite Hdom in Hin. set_unfold in Hin.
    repeat (destruct Hin as [Hin|Hin]); subst k; try done;
      rewrite Hk in *; simplify_eq; eauto.
Qed.

(** X10: When [from database import db] raises, the handler does not fail: an
    [ImportError] (also a [ModuleNotFoundError]) is reported with a fixed
    message that carries nothing of the exception, any other exception with
    the first 50 characters of its text; the connection is reported as not
    connected and no collection is listed. *)
Theorem test_database_import_failure (w : World) (e : exn) :
  database_module w = Raise e ->
  exists r,
    test_database w = (Ret r, w)
    /\ r !! "database" =
         Some (VStr
           (if isinstance_ImportError e
            then cross_mark
                   ++ u " Database module not found (run enable-database first)"
            else cross_mark ++ u " Error: " ++ take 50 (exn_str e)))
    /\ r !! "connection_status" = Some (VStr (u "Not Connected"))
    /\ r !! "collections" = Some (VList []).
Proof.
  intros Hdb.
  destruct (test_database_fields w) as (r & Hrun & _ & Hd & Hc & Hl & _).
  rewrite Hdb in Hd, Hc, Hl. exists r. auto.
Qed.

Lemma test_database_import_failure_witness :
  exists r,
    test_database (Demo.offline ∅) = (Ret r, Demo.offline ∅)
    /\ r !! "database" =
         Some (VStr (cross_mark
                       ++ u " Database module not found (run enable-database first)")).
Proof.
  destruct (test_database_import_failure (Demo.offline ∅)
              (Exn ModuleNotFoundError (u "No module named 'database'")))
    as (r & Hrun & Hd & _).
  - reflexivity.
  - exists r. split; [exact Hrun | exact Hd].
Defined.

(** X11: When the handle is there but the enumeration raises, the exception is
    caught by the inner handler whatever its class -- an [ImportError] too
    is reported as an enumeration error, not as a missing module -- with
    the first 50 characters of its text; the connection stays reported as
    connected and no collection is listed. *)
Theorem test_database_enumeration_failure
    (w : World) (db : db_handle) (e : exn) :
  database_module w = Ret (Some db) ->
  list_collection_names db = Raise e ->
  exists r,
    test_database w = (Ret r, w)
    /\ r !! "database" =
         Some (VStr (warning_sign ++ u "  Connected but Error: "
                       ++ take 50 (exn_str e)))
    /\ r !! "connection_status" = Some (VStr (u "Connected"))
    /\ r !! "collections" = Some (VList []).
Proof.
  intros Hdb Hnames.
  destruct (test_database_fields w) as (r & Hrun & _ & Hd & Hc & Hl & _).
  rewrite Hdb in Hd, Hc, Hl. rewrite Hnames in Hd, Hl. exists r. auto.
Qed.

Lemma test_database_enumeration_failure_witness :
  exists r,
    test_database (DemoMore.broken_database ∅)
      = (Ret r, DemoMore.broken_database ∅)
    /\ r !! "database" =
         Some (VStr (warning_sign ++ u "  Connected but Error: "
                       ++ u "cannot import name 'SON' from 'bson'"))
    /\ r !! "connection_status" = Some (VStr (u "Connected")).
Proof.
  destruct (test_database_enumeration_failure
              (DemoMore.broken_database ∅) DemoMore.broken_handle
              (Exn ImportError (u "cannot import name 'SON' from 'bson'")))
    as (r & Hrun & Hd & Hc & _).
  - reflexivity.
  - reflexivity.
  - exists r. split; [exact Hrun|]. split; [exact Hd | exact Hc].
Defined.
